(** * Kaldi nnet3 component interface and CUDA sparse matrix: a shallow embedding

    Sources embedded here:
    - [src/nnet3/nnet-component-itf.h]: [enum ComponentProperties], the
      abstract class [Component], and the base classes [UpdatableComponent]
      and [NonlinearComponent];
    - [src/cudamatrix/cu-sparse-matrix.h]: the class [CuSparseMatrix].

    C++ objects are records; member functions take the object ([this]) and
    return the updated object.  Functions that can abort return in the
    [result] monad.  [float]/[double] values are IEEE-754 values of the
    specification type [spec_float]. *)

From Stdlib Require Import ZArith SpecFloat Zpower.
From stdpp Require Import gmap strings list.

Local Open Scope Z_scope.

(** ** IEEE-754 arithmetic *)

Module IEEE.

(** A binary floating-point format: precision and maximal exponent. *)
Record format := Format { prec : Z; emax : Z }.

Definition binary32 : format := Format 24 128.
Definition binary64 : format := Format 53 1024.

Definition pzero : spec_float := S754_zero false.
Definition nzero : spec_float := S754_zero true.

Definition is_zero (x : spec_float) : bool :=
  match x with S754_zero _ => true | _ => false end.

(** Conversion of an integer to format [f] (round to nearest even). *)
Definition of_Z (f : format) (n : Z) : spec_float :=
  binary_normalize (prec f) (emax f) n 0 false.

(** Conversion between formats, e.g. [double] to [float]. *)
Definition convert (f : format) (x : spec_float) : spec_float :=
  match x with
  | S754_finite s m e =>
      binary_normalize (prec f) (emax f) (cond_Zopp s (Z.pos m)) e s
  | _ => x
  end.

Definition add (f : format) : spec_float → spec_float → spec_float :=
  SFadd (prec f) (emax f).

Definition div (f : format) : spec_float → spec_float → spec_float :=
  SFdiv (prec f) (emax f).

(** Two values denote the same number: they are identical, or both are a
    zero (of either sign). *)
Definition same_number (x y : spec_float) : Prop :=
  x = y ∨ (is_zero x = true ∧ is_zero y = true).

End IEEE.

(** C++ [double] and its literals. *)
Definition double_fmt : IEEE.format := IEEE.binary64.
Definition double_of_Z : Z → spec_float := IEEE.of_Z double_fmt.
Definition double_add : spec_float → spec_float → spec_float :=
  IEEE.add double_fmt.

(** Conversion of a [double] to [BaseFloat], of format [bf]. *)
Definition to_BaseFloat (bf : IEEE.format) (x : spec_float) : spec_float :=
  IEEE.convert bf x.

(** The normalized binary64 representation of a positive integer below
    2^53: a 53-bit mantissa and the matching exponent. *)
Definition double_of_positive (N : positive) : spec_float :=
  S754_finite false (Z.to_pos (Z.pos N * 2 ^ (52 - Z.log2 (Z.pos N))))
              (Z.log2 (Z.pos N) - 52).

(** The literal [0.0]. *)
Definition lit_0_0 : spec_float := IEEE.pzero.
(** The literal [1.0]. *)
Definition lit_1_0 : spec_float := double_of_Z 1.
(** The literal [0.001]: the double nearest to 1/1000. *)
Definition lit_0_001 : spec_float :=
  IEEE.div double_fmt (double_of_Z 1) (double_of_Z 1000).

(** ** Errors *)

Inductive KaldiError :=
| AssertFailure (cond : string)
| UnknownComponentType (token : string)
| StreamFailure
| DimensionMismatch.

Inductive result (A : Type) :=
| Ok (a : A)
| Failed (e : KaldiError).
Arguments Ok {A} a.
Arguments Failed {A} e.

Global Instance result_ret : MRet result := λ A a, Ok a.
Global Instance result_bind : MBind result := λ A B k m,
  match m with
  | Ok a => k a
  | Failed e => Failed e
  end.

Definition returns_normally {A} (r : result A) : bool :=
  match r with Ok _ => true | Failed _ => false end.

(** Modelled from the spec: the macro [KALDI_ASSERT] of base/kaldi-error.h,
    which is not among the sources.  A failed assertion is a fatal error
    that aborts the current call. *)
Definition KALDI_ASSERT (cond : bool) : result () :=
  if cond then Ok () else Failed (AssertFailure "0").

(** ** enum ComponentProperties *)

Definition kSimpleComponent : Z := 0x001.
Definition kUpdatableComponent : Z := 0x002.
Definition kLinearInInput : Z := 0x004.
Definition kLinearInParameters : Z := 0x008.
Definition kBackpropNeedsInput : Z := 0x010.
Definition kBackpropNeedsOutput : Z := 0x020.
Definition kPropagateInPlace : Z := 0x040.
Definition kBackpropInPlace : Z := 0x080.
Definition kPropagateAdds : Z := 0x100.
Definition kBackpropAdds : Z := 0x200.

(** [Properties() & flag != 0] *)
Definition has_property (properties flag : Z) : bool :=
  negb (Z.land properties flag =? 0).

(** The enumerators of [ComponentProperties], in the order of the header. *)
Definition ComponentProperties_flags : list Z :=
  [kSimpleComponent; kUpdatableComponent; kLinearInInput; kLinearInParameters;
   kBackpropNeedsInput; kBackpropNeedsOutput; kPropagateInPlace;
   kBackpropInPlace; kPropagateAdds; kBackpropAdds].

(** A bitmask built as the header shows,
    [int32 properties = kSimpleComponent|kBackpropNeedsOutput]. *)
Definition mask_of (flags : list Z) : Z := foldr Z.lor 0 flags.

(** ** class ComponentPrecomputedIndexes

    The base class has no data members. *)
Inductive ComponentPrecomputedIndexes := PrecomputedIndexes.

(** ** class Component

    The pure virtual member functions [Type], [InputDim], [OutputDim],
    [Properties] and [Read] are supplied by the concrete class: they are the
    fields of the record.  [std::istream] is the text still to be read. *)

Definition istream := string.

#[warnings="-register-all"]
Inductive Component := MkComponent {
  Type_ : string;
  InputDim : Z;
  OutputDim : Z;
  Properties : Z;
  Read : istream → bool → result (Component * istream)
}.

Module Component.

Definition is_simple (this : Component) : bool :=
  has_property (Properties this) kSimpleComponent.

(** Modelled from the spec: the body of [Component::GetInputIndexes] is in
    nnet-component-itf.cc, which is not among the sources.  The header says
    the default "just copies the output_index to a single identical
    input_index".  The result is the new content of [*input_indexes]. *)
Definition GetInputIndexes {MiscComputationInfo Index : Type}
    (this : Component) (misc_info : MiscComputationInfo)
    (output_index : Index) (input_indexes : list Index) : list Index :=
  [output_index].

(** [virtual ComponentPrecomputedIndexes* PrecomputeIndexes(...) const
    { return NULL; }] *)
Definition PrecomputeIndexes {MiscComputationInfo Index : Type}
    (this : Component) (misc_info : MiscComputationInfo)
    (input_indexes output_indexes : list Index) (need_backprop : bool)
    : option ComponentPrecomputedIndexes :=
  None.

(** The process-wide registry of component types: type name to a newly
    constructed component of that type. *)
Abbreviation registry := (gmap string Component).

(** Modelled from the spec: [Component::NewComponentOfType] is only declared
    in the header ("Returns a new Component of the given type ..., or NULL
    if no such component type exists"); the spec describes it as a lookup
    in the type-name registry. *)
Definition NewComponentOfType (reg : registry) (type : string)
    : option Component :=
  reg !! type.

(** Modelled from the spec: [Component::ReadNew] is only declared in the
    header.  It reads the type token, instantiates the matching type through
    [NewComponentOfType] and delegates to its [Read]; an unrecognized token
    is an unknown-type error.  [ReadToken] is the stream primitive of
    base/io-funcs.h, which is not among the sources. *)
Definition ReadNew (reg : registry)
    (ReadToken : istream → bool → result (string * istream))
    (is_ : istream) (binary : bool) : result (Component * istream) :=
  '(token, rest) ← ReadToken is_ binary;
  match NewComponentOfType reg token with
  | None => Failed (UnknownComponentType token)
  | Some ans => Read ans rest binary
  end.

End Component.

(** ** class UpdatableComponent

    [BaseFloat] is a typedef of base/kaldi-types.h, which is not among the
    sources: its format [bf] is a parameter.  Every constructor of the header
    assigns [learning_rate_]; [is_gradient_] holds no value ([None]) until it
    is assigned. *)

Record UpdatableComponent := MkUpdatableComponent {
  learning_rate_ : spec_float;
  is_gradient_ : option bool
}.

(** Modelled from the spec: the parameters are owned by the concrete
    subclasses, none of which is among the sources; [params_] is the
    parameter storage of such a subclass, flattened. *)
Record UpdatableWithParams := MkUpdatableWithParams {
  updatable_ : UpdatableComponent;
  params_ : list spec_float
}.

Module UpdatableComponent.

(** [UpdatableComponent(const UpdatableComponent &other):
      learning_rate_(other.learning_rate_),
      is_gradient_(other.is_gradient_) { }] *)
Definition copy (other : UpdatableComponent) : UpdatableComponent :=
  {| learning_rate_ := learning_rate_ other;
     is_gradient_ := is_gradient_ other |}.

(** [UpdatableComponent(): learning_rate_(0.001) { }] *)
Definition default (bf : IEEE.format) : UpdatableComponent :=
  {| learning_rate_ := to_BaseFloat bf lit_0_001;
     is_gradient_ := None |}.

(** [void SetLearningRate(BaseFloat lrate) { learning_rate_ = lrate; }] *)
Definition SetLearningRate (lrate : spec_float) (this : UpdatableComponent)
    : UpdatableComponent :=
  {| learning_rate_ := lrate; is_gradient_ := is_gradient_ this |}.

(** [BaseFloat LearningRate() const { return learning_rate_; }] *)
Definition LearningRate (this : UpdatableComponent) : spec_float :=
  learning_rate_ this.

(** Modelled from the spec: [SetZero] is pure virtual and no implementation
    is among the sources.  The header says: "Sets parameters to zero, and if
    treat_as_gradient is true, sets is_gradient_ to true and the learning
    rate to 1." *)
Definition SetZero (bf : IEEE.format) (treat_as_gradient : bool)
    (this : UpdatableWithParams) : UpdatableWithParams :=
  let base := updatable_ this in
  {| updatable_ :=
       if treat_as_gradient
       then {| learning_rate_ := to_BaseFloat bf lit_1_0;
               is_gradient_ := Some true |}
       else base;
     params_ := const IEEE.pzero <$> params_ this |}.

(** [virtual int32 GetParameterDim() const { KALDI_ASSERT(0); return 0; }] *)
Definition GetParameterDim (this : UpdatableComponent) : result Z :=
  KALDI_ASSERT false;; mret 0.

(** [virtual void Vectorize(VectorBase<BaseFloat> *params) const
    { KALDI_ASSERT(0); }]; the result is the content of [*params]. *)
Definition Vectorize (this : UpdatableComponent)
    (params : list spec_float) : result (list spec_float) :=
  KALDI_ASSERT false;; mret params.

(** [virtual void UnVectorize(const VectorBase<BaseFloat> &params)
    { KALDI_ASSERT(0); }] *)
Definition UnVectorize (params : list spec_float)
    (this : UpdatableComponent) : result UpdatableComponent :=
  KALDI_ASSERT false;; mret this.

End UpdatableComponent.

(** ** Dense vectors and matrices

    [CuVector<double>] is the list of its elements; [Dim()] is its length. *)

Definition CuVector := list spec_float.

Definition Dim (v : CuVector) : Z := Z.of_nat (length v).

Definition all_zero (v : CuVector) : bool :=
  forallb IEEE.is_zero v.

(** Modelled from the spec: [CuMatrixBase<BaseFloat>] (cudamatrix/cu-matrix.h
    is not among the sources), a dense matrix given by its rows. *)
Record CuMatrixBase := MkCuMatrix {
  NumCols : Z;
  rows_ : list (list spec_float)
}.

Definition NumRows (M : CuMatrixBase) : Z := Z.of_nat (length (rows_ M)).

(** The dimensions of a matrix are non-negative [int32] values and every
    row has [NumCols] elements. *)
Definition wf_matrix (M : CuMatrixBase) : Prop :=
  0 ≤ NumCols M < 2 ^ 31 ∧ NumRows M < 2 ^ 31 ∧
  Forall (λ r, Z.of_nat (length r) = NumCols M) (rows_ M).

(** The zero vector of a given dimension. *)
Definition zero_vector (dim : Z) : CuVector :=
  replicate (Z.to_nat dim) IEEE.pzero.

(** Element-wise sum of two vectors of doubles. *)
Definition AddVec (v w : CuVector) : CuVector :=
  zip_with double_add v w.

(** The sum over the rows of each column, accumulated in double precision. *)
Definition row_sum (M : CuMatrixBase) : CuVector :=
  foldl (λ acc row, AddVec acc (IEEE.convert double_fmt <$> row))
        (zero_vector (NumCols M)) (rows_ M).

(** The sum of column [j] on its own: the elements of the column, converted
    to double, added one row after the other to +0.0. *)
Definition column_sum (M : CuMatrixBase) (j : nat) : spec_float :=
  foldl (λ acc row,
           double_add acc (IEEE.convert double_fmt (nth j row IEEE.pzero)))
        IEEE.pzero (rows_ M).

(** ** class NonlinearComponent *)

Record NonlinearComponent := MkNonlinearComponent {
  dim_ : Z;
  value_sum_ : CuVector;
  deriv_sum_ : CuVector;
  count_ : spec_float
}.

Module NonlinearComponent.

(** [void Init(int32 dim) { dim_ = dim; count_ = 0.0; }] *)
Definition Init (dim : Z) (this : NonlinearComponent) : NonlinearComponent :=
  {| dim_ := dim;
     value_sum_ := value_sum_ this;
     deriv_sum_ := deriv_sum_ this;
     count_ := lit_0_0 |}.

(** [explicit NonlinearComponent(int32 dim) { Init(dim); }]: the vectors
    are default-constructed (empty); [raw] is the storage before
    construction. *)
Definition make (dim : Z) (raw : NonlinearComponent) : NonlinearComponent :=
  Init dim {| dim_ := dim_ raw; value_sum_ := []; deriv_sum_ := [];
              count_ := count_ raw |}.

(** [NonlinearComponent(): dim_(0) { }]: only [dim_] is initialised and
    the vectors are default-constructed; [count_] keeps what the storage
    [raw] held. *)
Definition default (raw : NonlinearComponent) : NonlinearComponent :=
  {| dim_ := 0; value_sum_ := []; deriv_sum_ := []; count_ := count_ raw |}.

(** [virtual int32 InputDim() const { return dim_; }] *)
Definition InputDim (this : NonlinearComponent) : Z := dim_ this.
(** [virtual int32 OutputDim() const { return dim_; }] *)
Definition OutputDim (this : NonlinearComponent) : Z := dim_ this.

Definition ValueSum (this : NonlinearComponent) : CuVector := value_sum_ this.
Definition DerivSum (this : NonlinearComponent) : CuVector := deriv_sum_ this.
Definition Count (this : NonlinearComponent) : spec_float := count_ this.

(** Resizing of an accumulator on first use or on a change of dimension. *)
Definition resized (dim : Z) (v : CuVector) : CuVector :=
  if decide (Dim v = dim) then v else zero_vector dim.

(** Modelled from the spec: [UpdateStats] is only declared in the header
    ("This function updates the stats value_sum_, deriv_sum_, and count_.
    (If deriv == NULL, it won't update deriv_sum_)").  Per the spec it adds
    the row-summed values of each column into [value_sum_], the row-summed
    derivatives into [deriv_sum_] when [deriv] is supplied, and the number of
    rows to [count_]; the accumulators are resized on first use or on a
    change of dimension; operands of incompatible shape are a
    dimension-mismatch error. *)
Definition UpdateStats (out_value : CuMatrixBase)
    (deriv : option CuMatrixBase) (this : NonlinearComponent)
    : result NonlinearComponent :=
  let dim := InputDim this in
  if negb (NumCols out_value =? dim) then Failed DimensionMismatch else
  deriv_sum ←
    match deriv with
    | None => Ok (deriv_sum_ this)
    | Some d =>
        if negb (NumCols d =? dim) then Failed DimensionMismatch
        else Ok (AddVec (resized dim (deriv_sum_ this)) (row_sum d))
    end;
  mret {| dim_ := dim_ this;
          value_sum_ :=
            AddVec (resized dim (value_sum_ this)) (row_sum out_value);
          deriv_sum_ := deriv_sum;
          count_ := double_add (count_ this)
                               (double_of_Z (NumRows out_value)) |}.

End NonlinearComponent.

(** ** class CuSparseMatrix

    [MatrixIndexT] is [int32].  The element type [Real] is the template
    parameter. *)

(** Modelled from the spec: [SparseVector<Real>] (matrix/sparse-matrix.h is
    not among the sources): the ordered (column, value) pairs of one row. *)
Definition SparseVector (Real : Type) := list (Z * Real).

(** Modelled from the spec: [SparseMatrix<Real>], the host form: its rows. *)
Definition SparseMatrix (Real : Type) := list (SparseVector Real).

(** Modelled from the spec: [MatrixElement<Real>] (cudamatrix/cu-matrixdim.h
    is not among the sources): a (row, column, value) triple. *)
Record MatrixElement (Real : Type) := MkMatrixElement {
  row : Z;
  column : Z;
  weight : Real
}.
Arguments MkMatrixElement {Real} row column weight.
Arguments row {Real} m.
Arguments column {Real} m.
Arguments weight {Real} m.

Record CuSparseMatrix (Real : Type) := MkCuSparseMatrix {
  cpu_rows_ : list (SparseVector Real);
  elements_ : list (MatrixElement Real)
}.
Arguments MkCuSparseMatrix {Real} cpu_rows_ elements_.
Arguments cpu_rows_ {Real} c.
Arguments elements_ {Real} c.

Module CuSparseMatrix.
Section WithReal.
Context {Real : Type}.

(** The triples of one row. *)
Definition row_elements (r : Z) (sv : SparseVector Real)
    : list (MatrixElement Real) :=
  (λ p, MkMatrixElement r p.1 p.2) <$> sv.

(** The triples of the rows [rows], the first of which has index [r], in
    row order. *)
Fixpoint flatten_from (r : Z) (rows : list (SparseVector Real))
    : list (MatrixElement Real) :=
  match rows with
  | [] => []
  | sv :: rest => row_elements r sv ++ flatten_from (r + 1) rest
  end.

(** The (row, column, value) entries of a host sparse matrix. *)
Definition entries (smat : SparseMatrix Real) : list (MatrixElement Real) :=
  flatten_from 0 smat.

(** The pairs of row [r] in an element list. *)
Definition row_of (r : Z) (elems : list (MatrixElement Real))
    : SparseVector Real :=
  (λ e, (column e, weight e)) <$> filter (λ e, row e = r) elems.

(** One more than the largest row index of an element list. *)
Definition num_rows (elems : list (MatrixElement Real)) : Z :=
  foldr (λ e n, Z.max (row e + 1) n) 0 elems.

(** The rows of an element list. *)
Definition unflatten (elems : list (MatrixElement Real))
    : SparseMatrix Real :=
  (λ r, row_of r elems) <$> seqZ 0 (num_rows elems).

(** Modelled from the spec: [operator = (SparseMatrix<Real> &smat)] is only
    declared in the header.  It copies the rows of the host matrix; when
    the accelerator is enabled ([gpu]) it flattens them into the element
    list instead. *)
Definition assign (gpu : bool) (smat : SparseMatrix Real)
    (this : CuSparseMatrix Real) : CuSparseMatrix Real :=
  if gpu
  then {| cpu_rows_ := cpu_rows_ this; elements_ := entries smat |}
  else {| cpu_rows_ := smat; elements_ := elements_ this |}.

(** Modelled from the spec: the two representations "must be convertible
    into each other without loss".  The header declares no member that holds
    the number of rows next to the element list, so the host forms of a
    device matrix are the host matrices that the representation in use
    stands for: the row lists themselves, or any rows that flatten into the
    element list. *)
Definition host_form (gpu : bool) (this : CuSparseMatrix Real)
    (m : SparseMatrix Real) : Prop :=
  if gpu then entries m = elements_ this else m = cpu_rows_ this.



End WithReal.
End CuSparseMatrix.

(** ** Sample objects *)

(** A simple component, with the property mask the header gives as an
    example ([kSimpleComponent|kBackpropNeedsOutput]); its [Read] accepts
    nothing. *)
Definition simple_component : Component :=
  MkComponent "SigmoidComponent" 4 4
    (Z.lor kSimpleComponent kBackpropNeedsOutput)
    (λ _ _, Failed StreamFailure).

(** A nonlinear component that has accumulated statistics: one row
    [[1.0; 1.0]] of values and of derivatives. *)
Definition trained_nonlinear : NonlinearComponent :=
  {| dim_ := 2;
     value_sum_ := [lit_1_0; lit_1_0];
     deriv_sum_ := [lit_1_0; lit_1_0];
     count_ := lit_1_0 |}.

(** Two batches of output values for a component of dimension 2, as
    [float] matrices: one row and two rows of ones. *)
Definition float_one : spec_float := IEEE.of_Z IEEE.binary32 1.

Definition batch_of_one_row : CuMatrixBase :=
  MkCuMatrix 2 [[float_one; float_one]].

Definition batch_of_two_rows : CuMatrixBase :=
  MkCuMatrix 2 [[float_one; float_one]; [float_one; float_one]].

(** A registry with one type, and a token reader that takes the whole
    stream as the token. *)
Definition sample_registry : gmap string Component :=
  {[ "SigmoidComponent" := simple_component ]}.

Definition whole_stream_token (is_ : istream) (binary : bool)
    : result (string * istream) :=
  Ok (is_, "").

(** * Properties *)

(** ** NonlinearComponent::Init *)

(** [Init] on a component that has accumulated statistics leaves the sums as
    they are. *)
Example Init_trained_nonlinear :
  NonlinearComponent.Init 2 trained_nonlinear =
  {| dim_ := 2; value_sum_ := [lit_1_0; lit_1_0];
     deriv_sum_ := [lit_1_0; lit_1_0]; count_ := IEEE.pzero |}.
Proof. reflexivity. Qed.

(** C1, as stated, fails: after [Init(2)] on a component whose sums are
    [[1.0; 1.0]], the dimension and the count are set but the two sums are
    not zero. *)
Lemma Init_does_not_reset_sums :
  ¬ (let c := NonlinearComponent.Init 2 trained_nonlinear in
     NonlinearComponent.InputDim c = 2 ∧
     all_zero (NonlinearComponent.ValueSum c) = true ∧
     all_zero (NonlinearComponent.DerivSum c) = true ∧
     NonlinearComponent.Count c = lit_0_0).
Proof. cbv. intros (_ & Hv & _). discriminate Hv. Qed.

(** C1 (amended): [Init(dim)] sets the dimension (input and output) to [dim]
    and the count to 0.0, and leaves [value_sum_] and [deriv_sum_] as they
    were. *)
Theorem Init_sets_dim_and_count (this : NonlinearComponent) (dim : Z) :
  let c := NonlinearComponent.Init dim this in
  NonlinearComponent.InputDim c = dim ∧
  NonlinearComponent.OutputDim c = dim ∧
  NonlinearComponent.Count c = lit_0_0 ∧
  NonlinearComponent.ValueSum c = NonlinearComponent.ValueSum this ∧
  NonlinearComponent.DerivSum c = NonlinearComponent.DerivSum this.
Proof. destruct this; cbn. repeat split. Qed.

(** On construction the sums are empty, so all three statistics are zero. *)
Lemma make_statistics_zero (dim : Z) (raw : NonlinearComponent) :
  let c := NonlinearComponent.make dim raw in
  NonlinearComponent.InputDim c = dim ∧
  all_zero (NonlinearComponent.ValueSum c) = true ∧
  all_zero (NonlinearComponent.DerivSum c) = true ∧
  NonlinearComponent.Count c = lit_0_0.
Proof. repeat split. Qed.

(** ** Component: index functions *)

(** The default [GetInputIndexes] does not depend on the component, the
    misc-info or the previous content of the output vector. *)
Lemma GetInputIndexes_default {MiscComputationInfo Index : Type}
    (this : Component) (misc_info : MiscComputationInfo)
    (output_index : Index) (input_indexes : list Index) :
  Component.GetInputIndexes this misc_info output_index input_indexes
  = [output_index].
Proof. reflexivity. Qed.

(** C3: for a simple component, [GetInputIndexes] yields the list whose only
    element is the given output index. *)
Theorem GetInputIndexes_simple {MiscComputationInfo Index : Type}
    (this : Component) (misc_info : MiscComputationInfo)
    (output_index : Index) (input_indexes : list Index) :
  Component.is_simple this = true →
  Component.GetInputIndexes this misc_info output_index input_indexes
  = [output_index].
Proof. intros _. apply GetInputIndexes_default. Qed.

Lemma GetInputIndexes_simple_witness :
  Component.is_simple simple_component = true ∧
  Component.GetInputIndexes simple_component () (0, 7, 0) [(1, 1, 1)]
  = [(0, 7, 0)].
Proof.
  split; [reflexivity|].
  apply (GetInputIndexes_simple simple_component () (0, 7, 0) [(1, 1, 1)]).
  reflexivity.
Defined.

(** The base-class [PrecomputeIndexes] returns NULL whatever it is given. *)
Lemma PrecomputeIndexes_default {MiscComputationInfo Index : Type}
    (this : Component) (misc_info : MiscComputationInfo)
    (input_indexes output_indexes : list Index) (need_backprop : bool) :
  Component.PrecomputeIndexes this misc_info input_indexes output_indexes
    need_backprop = None.
Proof. reflexivity. Qed.

(** C4: for a simple component, [PrecomputeIndexes] returns NULL for every
    misc-info, input-index list, output-index list and [need_backprop]. *)
Theorem PrecomputeIndexes_simple {MiscComputationInfo Index : Type}
    (this : Component) (misc_info : MiscComputationInfo)
    (input_indexes output_indexes : list Index) (need_backprop : bool) :
  Component.is_simple this = true →
  Component.PrecomputeIndexes this misc_info input_indexes output_indexes
    need_backprop = None.
Proof. intros _. apply PrecomputeIndexes_default. Qed.

Lemma PrecomputeIndexes_simple_witness :
  Component.is_simple simple_component = true ∧
  Component.PrecomputeIndexes simple_component () [(0, 6, 0); (0, 7, 0)]
    [(0, 7, 0)] true = None.
Proof.
  split; [reflexivity|].
  apply (PrecomputeIndexes_simple simple_component ()
           [(0, 6, 0); (0, 7, 0)] [(0, 7, 0)] true).
  reflexivity.
Defined.

(** ** UpdatableComponent *)

(** The literal [0.001] is the double nearest to 1/1000: with mantissa [m]
    and exponent -62, the distance [|m / 2^62 - 1/1000|] is at most half a
    unit in the last place. *)
Lemma lit_0_001_nearest :
  ∃ m, lit_0_001 = S754_finite false m (-62) ∧
       Z.abs (1000 * Z.pos m - 2 ^ 62) ≤ 500.
Proof. exists 4611686018427388%positive. split; [reflexivity | vm_compute; discriminate]. Qed.

(** The values of the literals as [float] and as [double]. *)
Example BaseFloat_literals :
  to_BaseFloat IEEE.binary32 lit_0_001
    = S754_finite false 0x83126F (-33) ∧
  to_BaseFloat IEEE.binary64 lit_0_001
    = S754_finite false 0x10624DD2F1A9FC (-62) ∧
  to_BaseFloat IEEE.binary32 lit_1_0
    = S754_finite false 0x800000 (-23) ∧
  to_BaseFloat IEEE.binary64 lit_1_0
    = S754_finite false 0x10000000000000 (-52).
Proof. repeat split; reflexivity. Qed.

(** C10, as stated, fails when [BaseFloat] is [float]: after
    [UpdatableComponent()], comparing [LearningRate()] with 0.001 for
    equality gives false. *)
Lemma default_learning_rate_not_exactly_0_001 :
  ¬ (let c := UpdatableComponent.default IEEE.binary32 in
     SFeqb (IEEE.convert double_fmt (UpdatableComponent.LearningRate c))
           lit_0_001 = true ∧
     is_gradient_ c = None).
Proof. vm_compute. intros [H _]. discriminate H. Qed.

(** C10 (amended): after [UpdatableComponent()], [LearningRate()] is the
    literal 0.001 converted to [BaseFloat], and [is_gradient_] has been given
    no value.  When [BaseFloat] is [double] this is the double nearest to
    1/1000 and compares equal to 0.001; when [BaseFloat] is [float] it is
    the float nearest to 1/1000. *)
Theorem default_constructor_learning_rate :
  (∀ bf : IEEE.format,
     let c := UpdatableComponent.default bf in
     UpdatableComponent.LearningRate c = to_BaseFloat bf lit_0_001 ∧
     is_gradient_ c = None) ∧
  (∃ m : positive,
     UpdatableComponent.LearningRate (UpdatableComponent.default IEEE.binary64)
     = S754_finite false m (-62) ∧
     Z.abs (1000 * Z.pos m - 2 ^ 62) ≤ 500 ∧
     SFeqb (UpdatableComponent.LearningRate
              (UpdatableComponent.default IEEE.binary64)) lit_0_001 = true) ∧
  (∃ m : positive,
     UpdatableComponent.LearningRate (UpdatableComponent.default IEEE.binary32)
     = S754_finite false m (-33) ∧
     Z.abs (1000 * Z.pos m - 2 ^ 33) ≤ 500).
Proof.
  split; [intros bf; split; reflexivity|]. split.
  - exists 0x10624DD2F1A9FC%positive.
    split; [reflexivity|]. split; [vm_compute; discriminate | reflexivity].
  - exists 0x83126F%positive.
    split; [reflexivity | vm_compute; discriminate].
Qed.

(** C5: after [SetZero(true)] the component is a gradient, its learning rate
    is 1.0 and each of its parameters is 0. *)
Theorem SetZero_true (bf : IEEE.format) (this : UpdatableWithParams) :
  let c := UpdatableComponent.SetZero bf true this in
  is_gradient_ (updatable_ c) = Some true ∧
  UpdatableComponent.LearningRate (updatable_ c)
    = to_BaseFloat bf lit_1_0 ∧
  length (params_ c) = length (params_ this) ∧
  Forall (λ p, p = IEEE.pzero) (params_ c).
Proof.
  cbn. repeat split.
  - apply length_fmap.
  - apply Forall_fmap, Forall_true. reflexivity.
Qed.

(** [SetZero(false)] zeroes the parameters and keeps the learning rate and
    the gradient flag. *)
Lemma SetZero_false (bf : IEEE.format) (this : UpdatableWithParams) :
  let c := UpdatableComponent.SetZero bf false this in
  updatable_ c = updatable_ this ∧
  Forall (λ p, p = IEEE.pzero) (params_ c).
Proof.
  cbn. split; [reflexivity|].
  apply Forall_fmap, Forall_true. reflexivity.
Qed.

(** C8: the default [GetParameterDim], [Vectorize] and [UnVectorize] fail on
    their assertion; none of them returns normally. *)
Theorem default_vectorization_fails (this : UpdatableComponent)
    (params : list spec_float) :
  UpdatableComponent.GetParameterDim this = Failed (AssertFailure "0") ∧
  UpdatableComponent.Vectorize this params = Failed (AssertFailure "0") ∧
  UpdatableComponent.UnVectorize params this = Failed (AssertFailure "0") ∧
  returns_normally (UpdatableComponent.GetParameterDim this) = false ∧
  returns_normally (UpdatableComponent.Vectorize this params) = false ∧
  returns_normally (UpdatableComponent.UnVectorize params this) = false.
Proof. repeat split. Qed.

(** ** Component: factories *)

(** A registered type name yields the registered component. *)
Lemma NewComponentOfType_known (reg : gmap string Component) (type : string)
    (c : Component) :
  reg !! type = Some c → Component.NewComponentOfType reg type = Some c.
Proof. intros H. exact H. Qed.

(** With a registered token, [ReadNew] delegates to the component's [Read]. *)
Lemma ReadNew_known (reg : gmap string Component)
    (ReadToken : istream → bool → result (string * istream))
    (is_ rest : istream) (binary : bool) (token : string) (c : Component) :
  ReadToken is_ binary = Ok (token, rest) →
  reg !! token = Some c →
  Component.ReadNew reg ReadToken is_ binary = Read c rest binary.
Proof.
  intros Htok Hreg. unfold Component.ReadNew, Component.NewComponentOfType.
  rewrite Htok. cbn. rewrite Hreg. reflexivity.
Qed.

(** C9: for a type name that is not in the registry, [NewComponentOfType]
    returns NULL (no error), and [ReadNew] on a stream that starts with this
    token fails with an unknown-type error. *)
Theorem unknown_type (reg : gmap string Component)
    (ReadToken : istream → bool → result (string * istream))
    (type : string) :
  reg !! type = None →
  Component.NewComponentOfType reg type = None ∧
  ∀ (is_ rest : istream) (binary : bool),
    ReadToken is_ binary = Ok (type, rest) →
    Component.ReadNew reg ReadToken is_ binary
    = Failed (UnknownComponentType type).
Proof.
  intros Hreg. split; [exact Hreg|].
  intros is_ rest binary Htok.
  unfold Component.ReadNew, Component.NewComponentOfType.
  rewrite Htok. cbn. rewrite Hreg. reflexivity.
Qed.

Lemma unknown_type_witness :
  sample_registry !! "NoSuchComponent" = None ∧
  Component.NewComponentOfType sample_registry "NoSuchComponent" = None ∧
  Component.ReadNew sample_registry whole_stream_token "NoSuchComponent" true
  = Failed (UnknownComponentType "NoSuchComponent").
Proof.
  assert (H : sample_registry !! "NoSuchComponent" = None) by reflexivity.
  split; [exact H|].
  destruct (unknown_type sample_registry whole_stream_token
              "NoSuchComponent" H) as [Hnew Hread].
  split; [exact Hnew|].
  apply (Hread "NoSuchComponent" "" true). reflexivity.
Defined.

(** ** CuSparseMatrix: host form, element list and back *)

Section sparse_round_trip.
Context {Real : Type}.
Implicit Types (sv : SparseVector Real) (rows : list (SparseVector Real)).
Implicit Types (elems : list (MatrixElement Real)) (e : MatrixElement Real).
Import CuSparseMatrix.

Lemma row_of_app r elems1 elems2 :
  row_of r (elems1 ++ elems2) = row_of r elems1 ++ row_of r elems2.
Proof. unfold row_of. by rewrite filter_app, fmap_app. Qed.

Lemma row_of_row_elements r sv : row_of r (row_elements r sv) = sv.
Proof.
  unfold row_of, row_elements.
  induction sv as [|[c v] sv IH]; [done|].
  rewrite fmap_cons, filter_cons_True by done.
  cbn. by rewrite IH.
Qed.

Lemma row_of_no_such_row r elems :
  (∀ e, e ∈ elems → row e ≠ r) → row_of r elems = [].
Proof.
  intros Hne. unfold row_of.
  induction elems as [|e elems IH]; [done|].
  rewrite filter_cons_False by (apply Hne; left).
  apply IH. intros e' He'. apply Hne. by right.
Qed.

Lemma elem_of_row_elements e r sv : e ∈ row_elements r sv → row e = r.
Proof.
  unfold row_elements. intros (p & -> & _)%list_elem_of_fmap. done.
Qed.

Lemma flatten_from_row_ge rows : ∀ r e, e ∈ flatten_from r rows → r ≤ row e.
Proof.
  induction rows as [|sv rows IH]; intros r e; cbn.
  - by intros ?%not_elem_of_nil.
  - intros [He|He]%elem_of_app.
    + apply elem_of_row_elements in He. lia.
    + apply IH in He. lia.
Qed.

Lemma flatten_from_empty_rows rows :
  ∀ r, Forall (λ sv, sv = []) rows → flatten_from r rows = [].
Proof.
  induction rows as [|sv rows IH]; intros r Hall; [done|].
  apply Forall_cons in Hall as [-> Hall]. cbn. by apply IH.
Qed.

Lemma row_lt_num_rows elems e : e ∈ elems → row e < num_rows elems.
Proof.
  induction elems as [|e' elems IH]; [by intros ?%not_elem_of_nil|].
  change (num_rows (e' :: elems))
    with (Z.max (row e' + 1) (num_rows elems)).
  intros [->|He]%elem_of_cons; [lia|].
  specialize (IH He). lia.
Qed.

(** Rebuilding rows [r], ..., [r + k - 1] from the element list of [rows]
    and flattening them again gives the element list back, when [k] rows
    cover every row index that occurs. *)
Lemma flatten_from_rebuilt rows :
  ∀ r k,
    (∀ e, e ∈ flatten_from r rows → row e < r + k) →
    flatten_from r ((λ r', row_of r' (flatten_from r rows)) <$> seqZ r k)
    = flatten_from r rows.
Proof.
  induction rows as [|sv rows IH]; intros r k Hlt.
  - apply flatten_from_empty_rows, Forall_fmap, Forall_true. done.
  - destruct (decide (0 < k)) as [Hk|Hk].
    + rewrite seqZ_cons by done. cbn [flatten_from fmap list_fmap].
      rewrite row_of_app, row_of_row_elements.
      rewrite (row_of_no_such_row r (flatten_from (r + 1) rows)), app_nil_r.
      2:{ intros e He%flatten_from_row_ge. lia. }
      f_equal. replace (Z.succ r) with (r + 1) by lia.
      trans (flatten_from (r + 1)
               ((λ r', row_of r' (flatten_from (r + 1) rows))
                  <$> seqZ (r + 1) (Z.pred k))).
      * f_equal. apply list_fmap_ext. intros i r' Hr'.
        apply lookup_seqZ in Hr' as [-> _].
        rewrite row_of_app, (row_of_no_such_row _ (row_elements r sv));
          [done|].
        intros e He%elem_of_row_elements. lia.
      * apply IH. intros e He. specialize (Hlt e). cbn in Hlt.
        rewrite elem_of_app in Hlt. specialize (Hlt (or_intror He)). lia.
    + rewrite seqZ_nil by lia. cbn [fmap list_fmap flatten_from].
      destruct (row_elements r sv ++ flatten_from (r + 1) rows)
        as [|e elems] eqn:Heq; [done|].
      exfalso.
      assert (He : e ∈ flatten_from r (sv :: rows)) by (cbn; rewrite Heq; left).
      pose proof (flatten_from_row_ge _ _ _ He).
      specialize (Hlt e He). lia.
Qed.

(** Flattening the rebuilt rows of the entries of a host matrix gives the
    same entries, in the same order. *)
Lemma entries_unflatten (smat : SparseMatrix Real) :
  entries (unflatten (entries smat)) = entries smat.
Proof.
  unfold unflatten, entries. apply flatten_from_rebuilt.
  intros e He. pose proof (row_lt_num_rows _ _ He). lia.
Qed.




(** The rows rebuilt from the element list are a host form of it. *)
Lemma unflatten_host_form (smat : SparseMatrix Real)
    (this : CuSparseMatrix Real) :
  host_form true (assign true smat this) (unflatten (entries smat)).
Proof. apply entries_unflatten. Qed.


End sparse_round_trip.


(** Through the element list the entries are kept; empty rows at the end are
    not. *)
Example unflatten_drops_trailing_empty_rows :
  CuSparseMatrix.unflatten
    (elements_ (CuSparseMatrix.assign true
                  [[(0, 15)]; []; [(2, -30); (1, 7)]; []]
                  (MkCuSparseMatrix [] [])))
  = [[(0, 15)]; []; [(2, -30); (1, 7)]].
Proof. reflexivity. Qed.

(** ** Integers in double precision

    Integers below 2^53 are represented exactly, and so are their sums. *)

Lemma digits2_pos_size (p : positive) : digits2_pos p = Pos.size p.
Proof. induction p; cbn; congruence. Qed.

Lemma digits2_pos_log2 (p : positive) :
  Z.pos (digits2_pos p) = Z.log2 (Z.pos p) + 1.
Proof.
  rewrite digits2_pos_size. destruct p; cbn [Z.log2 Pos.size]; lia.
Qed.

Lemma iter_pos_nat {A} (f : A → A) (p : positive) :
  ∀ x, SpecFloat.iter_pos f p x = Nat.iter (Pos.to_nat p) f x.
Proof.
  induction p as [p IH|p IH|]; intros x; cbn [SpecFloat.iter_pos].
  - rewrite !IH, Pos2Nat.inj_xI, <- Nat.iter_succ_r, <- Nat.iter_add.
    f_equal. lia.
  - rewrite !IH, Pos2Nat.inj_xO, <- Nat.iter_add. f_equal. lia.
  - reflexivity.
Qed.

Lemma shr_1_iter_exact (n : nat) :
  ∀ M q : positive,
    Z.pos M = Z.pos q * 2 ^ Z.of_nat n →
    Nat.iter n shr_1 (Build_shr_record (Z.pos M) false false)
    = Build_shr_record (Z.pos q) false false.
Proof.
  induction n as [|n IH]; intros M q HM.
  - cbn. f_equal. rewrite HM. cbn. lia.
  - cbn [Nat.iter nat_rect]. 
    change (nat_rect _ _ _ n) with (Nat.iter n shr_1 {| shr_m := Z.pos M; shr_r := false; shr_s := false |}).
    rewrite (IH M (xO q)); [reflexivity|].
    rewrite HM, Nat2Z.inj_succ, Z.pow_succ_r by lia. lia.
Qed.

Lemma shl_align_spec (m : positive) (e e' : Z) :
  e' ≤ e →
  Z.pos (fst (shl_align m e e')) = Z.pos m * 2 ^ (e - e') /\
  snd (shl_align m e e') = e'.
Proof.
  intros Hle. unfold shl_align.
  destruct (e' - e) as [|d|d] eqn:Hd; cbn [fst snd].
  - replace (e - e') with 0 by lia. split; lia.
  - lia.
  - change (Pos.iter xO m d) with (shift_pos d m).
    rewrite shift_pos_correct. change (Z.pow_pos 2 d) with (2 ^ Z.pos d).
    replace (e - e') with (Z.pos d) by lia. split; lia.
Qed.

Lemma shl_align_ge (m : positive) (e e' : Z) :
  e ≤ e' → shl_align m e e' = (m, e).
Proof.
  intros Hle. unfold shl_align. destruct (e' - e) eqn:Hd; try reflexivity. lia.
Qed.

Lemma log2_bound (N : positive) :
  Z.pos N < 2 ^ 53 → 0 ≤ Z.log2 (Z.pos N) ≤ 52.
Proof.
  intros H. split; [apply Z.log2_nonneg|].
  apply Z.log2_lt_pow2 in H; lia.
Qed.

Lemma binary_round_aux_exact (mz N : positive) (ez : Z) :
  Z.pos N < 2 ^ 53 →
  ez ≤ Z.log2 (Z.pos N) - 52 →
  Z.pos mz = Z.pos N * 2 ^ (- ez) →
  binary_round_aux 53 1024 false (Z.pos mz) ez loc_Exact = double_of_positive N.
Proof.
  intros HN Hez Hmz. pose proof (log2_bound N HN) as HL.
  set (L := Z.log2 (Z.pos N)) in *.
  set (q := Z.to_pos (Z.pos N * 2 ^ (52 - L))).
  assert (Hq : Z.pos q = Z.pos N * 2 ^ (52 - L)).
  { unfold q. rewrite Z2Pos.id; [reflexivity|].
    apply Z.mul_pos_pos; [lia|]. apply Z.pow_pos_nonneg; lia. }
  assert (Hdig_mz : Z.pos (digits2_pos mz) = L + 1 - ez).
  { rewrite digits2_pos_log2, Hmz, Z.log2_mul_pow2 by lia. fold L. lia. }
  assert (Hdig_q : Z.pos (digits2_pos q) = 53).
  { rewrite digits2_pos_log2, Hq, Z.log2_mul_pow2 by lia. fold L. lia. }
  assert (Hshr1 : shr_fexp 53 1024 (Z.pos mz) ez loc_Exact
                  = (Build_shr_record (Z.pos q) false false, L - 52)).
  { unfold shr_fexp, shr, fexp, emin. cbn [Zdigits2 shr_record_of_loc].
    rewrite Hdig_mz.
    replace (Z.max (L + 1 - ez + ez - 53) (3 - 1024 - 53) - ez)
      with (L - 52 - ez) by lia.
    destruct (L - 52 - ez) as [|s|s] eqn:Hs; [| |lia].
    - f_equal; [|lia]. f_equal. rewrite Hq, Hmz. f_equal. f_equal. lia.
    - f_equal; [|lia]. rewrite iter_pos_nat.
      apply shr_1_iter_exact. rewrite Hq, Hmz, positive_nat_Z.
      rewrite <- Z.mul_assoc, <- Z.pow_add_r by lia. f_equal. f_equal. lia. }
  assert (Hshr2 : shr_fexp 53 1024 (Z.pos q) (L - 52) loc_Exact
                  = (Build_shr_record (Z.pos q) false false, L - 52)).
  { unfold shr_fexp, shr, fexp, emin. cbn [Zdigits2 shr_record_of_loc].
    rewrite Hdig_q.
    replace (Z.max (53 + (L - 52) - 53) (3 - 1024 - 53) - (L - 52))
      with 0 by lia.
    reflexivity. }
  unfold binary_round_aux. rewrite Hshr1.
  cbn [shr_m loc_of_shr_record round_nearest_even].
  rewrite Hshr2. cbn [shr_m].
  replace (L - 52 <=? 1024 - 53) with true by (symmetry; apply Z.leb_le; lia).
  reflexivity.
Qed.

Lemma binary_round_exact (M N : positive) (k : Z) :
  0 ≤ k →
  Z.pos M = Z.pos N * 2 ^ k →
  Z.pos N < 2 ^ 53 →
  binary_round 53 1024 false M (- k) = double_of_positive N.
Proof.
  intros Hk HM HN. pose proof (log2_bound N HN) as HL.
  unfold binary_round, fexp, emin.
  rewrite digits2_pos_log2, HM, Z.log2_mul_pow2 by lia.
  set (L := Z.log2 (Z.pos N)) in *.
  replace (Z.max (k + L + 1 + - k - 53) (3 - 1024 - 53)) with (L - 52) by lia.
  destruct (Z.le_gt_cases (L - 52) (- k)) as [Hle|Hgt].
  - destruct (shl_align_spec M (- k) (L - 52) Hle) as [Hm He].
    destruct (shl_align M (- k) (L - 52)) as [mz ez]. cbn [fst snd] in *.
    subst ez. apply binary_round_aux_exact; [done| fold L; lia |].
    rewrite Hm, HM, <- Z.mul_assoc, <- Z.pow_add_r by lia.
    f_equal. f_equal. lia.
  - rewrite shl_align_ge by lia.
    apply binary_round_aux_exact; [done| fold L; lia |].
    rewrite HM. f_equal. f_equal. lia.
Qed.

Lemma binary_normalize_pos (N : positive) :
  Z.pos N < 2 ^ 53 → binary_normalize 53 1024 (Z.pos N) 0 false = double_of_positive N.
Proof.
  intros HN. cbn [binary_normalize].
  apply (binary_round_exact N N 0); [lia | lia | done].
Qed.

Lemma double_of_positive_mantissa (N : positive) :
  Z.pos N < 2 ^ 53 →
  Z.pos (Z.to_pos (Z.pos N * 2 ^ (52 - Z.log2 (Z.pos N))))
  = Z.pos N * 2 ^ (52 - Z.log2 (Z.pos N)).
Proof.
  intros HN. pose proof (log2_bound N HN).
  rewrite Z2Pos.id; [done|].
  apply Z.mul_pos_pos; [lia|]. apply Z.pow_pos_nonneg; lia.
Qed.

Lemma SFadd_double_of_positive (a b : positive) :
  Z.pos a + Z.pos b < 2 ^ 53 →
  SFadd 53 1024 (double_of_positive a) (double_of_positive b) = double_of_positive (a + b).
Proof.
  intros Hab.
  assert (Ha : Z.pos a < 2 ^ 53) by lia.
  assert (Hb : Z.pos b < 2 ^ 53) by lia.
  pose proof (log2_bound a Ha) as HLa. pose proof (log2_bound b Hb) as HLb.
  unfold double_of_positive at 1 2. cbn [SFadd cond_Zopp].
  set (La := Z.log2 (Z.pos a)) in *. set (Lb := Z.log2 (Z.pos b)) in *.
  set (ez := Z.min (La - 52) (Lb - 52)).
  destruct (shl_align_spec (Z.to_pos (Z.pos a * 2 ^ (52 - La))) (La - 52) ez)
    as [Hma _]; [lia|].
  destruct (shl_align_spec (Z.to_pos (Z.pos b * 2 ^ (52 - Lb))) (Lb - 52) ez)
    as [Hmb _]; [lia|].
  rewrite Hma, Hmb. unfold La, Lb. rewrite !double_of_positive_mantissa by done.
  fold La Lb.
  rewrite <- !Z.mul_assoc, <- !Z.pow_add_r by lia.
  replace (52 - La + (La - 52 - ez)) with (- ez) by lia.
  replace (52 - Lb + (Lb - 52 - ez)) with (- ez) by lia.
  rewrite <- Z.mul_add_distr_r.
  assert (Hpow : 0 < 2 ^ (- ez)) by (apply Z.pow_pos_nonneg; lia).
  destruct ((Z.pos a + Z.pos b) * 2 ^ (- ez)) as [|M|M] eqn:HM; [lia| |lia].
  cbn [binary_normalize].
  replace ez with (- - ez) at 1 by lia.
  apply binary_round_exact; [lia| |lia].
  rewrite Pos2Z.inj_add. done.
Qed.

Lemma SFadd_of_Z (a b : Z) :
  0 ≤ a → 0 ≤ b → a + b < 2 ^ 53 →
  SFadd 53 1024 (binary_normalize 53 1024 a 0 false)
                (binary_normalize 53 1024 b 0 false)
  = binary_normalize 53 1024 (a + b) 0 false.
Proof.
  intros Ha Hb Hab.
  destruct a as [|a|a]; [|destruct b as [|b|b]|]; try lia.
  - destruct b as [|b|b]; [reflexivity| |lia].
    change (0 + Z.pos b) with (Z.pos b).
    rewrite binary_normalize_pos by lia. reflexivity.
  - rewrite Z.add_0_r, binary_normalize_pos by lia. reflexivity.
  - change (Z.pos a + Z.pos b) with (Z.pos (a + b)).
    rewrite !binary_normalize_pos by lia.
    by apply SFadd_double_of_positive.
Qed.

(** ** NonlinearComponent::UpdateStats *)

(** Adding to +0.0 and then adding [b] gives the same number as adding [b]
    directly; the two results differ only when both operands are -0.0, in the
    sign of the zero. *)
Lemma double_add_zero_first (a b : spec_float) :
  IEEE.same_number (double_add (double_add IEEE.pzero a) b) (double_add a b).
Proof.
  unfold IEEE.same_number.
  destruct a as [[]| | |]; cbn; try (left; reflexivity).
  destruct b as [[]| | |]; cbn; auto.
Qed.

(** The conversion of a non-negative integer is not -0.0. *)
Lemma of_Z_nonneg_not_nzero (f : IEEE.format) (n : Z) :
  0 ≤ n → IEEE.of_Z f n ≠ IEEE.nzero.
Proof.
  intros Hn. unfold IEEE.of_Z, binary_normalize.
  destruct n as [|p|p]; [discriminate| |lia].
  unfold binary_round, binary_round_aux.
  repeat match goal with
         | |- context [let '(_, _) := ?x in _] => destruct x
         end.
  destruct (shr_m _); [discriminate| |discriminate].
  destruct (_ <=? _); discriminate.
Qed.

(** Adding a row count to a zero count gives the row count. *)
Lemma double_add_zero_count (n : Z) :
  0 ≤ n → double_add lit_0_0 (double_of_Z n) = double_of_Z n.
Proof.
  intros Hn. pose proof (of_Z_nonneg_not_nzero double_fmt n Hn) as Hnz.
  unfold double_of_Z. destruct (IEEE.of_Z double_fmt n) as [[]| | |]; try done.
Qed.

Lemma length_AddVec (v w : CuVector) :
  length v = length w → length (AddVec v w) = length v.
Proof. intros H. unfold AddVec. rewrite length_zip_with. lia. Qed.

(** The row sum of a well-formed matrix has [NumCols] elements. *)
Lemma Dim_row_sum (M : CuMatrixBase) : wf_matrix M → Dim (row_sum M) = NumCols M.
Proof.
  intros (Hcols & _ & Hrows). unfold row_sum, Dim.
  assert (Hacc : length (zero_vector (NumCols M)) = Z.to_nat (NumCols M))
    by apply length_replicate.
  revert Hacc. generalize (zero_vector (NumCols M)).
  induction Hrows as [|r rows Hr Hrows IH]; intros acc Hacc; cbn.
  - lia.
  - apply IH. rewrite length_AddVec; [done|].
    rewrite length_fmap. lia.
Qed.

(** One call of [UpdateStats] with matrices of the component's dimension. *)
Lemma UpdateStats_ok (this : NonlinearComponent) (out_value : CuMatrixBase)
    (deriv : option CuMatrixBase) :
  NumCols out_value = NonlinearComponent.InputDim this →
  (∀ d, deriv = Some d → NumCols d = NonlinearComponent.InputDim this) →
  NonlinearComponent.UpdateStats out_value deriv this =
  Ok {| dim_ := dim_ this;
        value_sum_ :=
          AddVec (NonlinearComponent.resized (dim_ this) (value_sum_ this))
                 (row_sum out_value);
        deriv_sum_ :=
          match deriv with
          | None => deriv_sum_ this
          | Some d =>
              AddVec (NonlinearComponent.resized (dim_ this) (deriv_sum_ this))
                     (row_sum d)
          end;
        count_ := double_add (count_ this) (double_of_Z (NumRows out_value)) |}.
Proof.
  intros Hout Hderiv. unfold NonlinearComponent.UpdateStats.
  rewrite Hout, Z.eqb_refl. cbn [negb].
  destruct deriv as [d|]; [|done].
  rewrite (Hderiv d eq_refl), Z.eqb_refl. done.
Qed.

(** An element of the element-wise sum. *)
Lemma AddVec_lookup (v w : CuVector) (j : nat) :
  (j < length v)%nat → (j < length w)%nat →
  AddVec v w !! j
  = Some (double_add (nth j v IEEE.pzero) (nth j w IEEE.pzero)).
Proof.
  intros Hv Hw. unfold AddVec, CuVector in *. rewrite lookup_zip_with.
  destruct (lookup_lt_is_Some_2 v j Hv) as [x Hx].
  destruct (lookup_lt_is_Some_2 w j Hw) as [y Hy].
  rewrite Hx, Hy. cbn.
  by rewrite (nth_lookup_Some _ _ _ _ Hx), (nth_lookup_Some _ _ _ _ Hy).
Qed.

(** Adding rows to a vector adds, at each position, the elements that the
    rows have there. *)
Lemma foldl_AddVec_lookup (n j : nat) (rows : list (list spec_float)) :
  Forall (λ r, length r = n) rows → (j < n)%nat →
  ∀ (acc : CuVector) (a : spec_float),
    length acc = n → acc !! j = Some a →
    foldl (λ acc row, AddVec acc (IEEE.convert double_fmt <$> row)) acc rows
      !! j
    = Some (foldl (λ a row,
                     double_add a
                       (IEEE.convert double_fmt (nth j row IEEE.pzero)))
                  a rows).
Proof.
  intros Hrows Hj.
  induction Hrows as [|r rows Hr Hrows IH]; intros acc a Hacc Ha; [done|].
  cbn [foldl]. apply IH.
  - rewrite length_AddVec; [done|]. rewrite length_fmap. lia.
  - rewrite AddVec_lookup by (rewrite ?length_fmap; lia).
    f_equal. f_equal; [by apply nth_lookup_Some|].
    destruct (lookup_lt_is_Some_2 r j) as [x Hx]; [lia|].
    rewrite (nth_lookup_Some _ _ _ _ Hx).
    apply nth_lookup_Some. by rewrite list_lookup_fmap, Hx.
Qed.

(** Element [j] of the row sum is the sum of column [j]. *)
Lemma row_sum_lookup (M : CuMatrixBase) (j : nat) :
  wf_matrix M → Z.of_nat j < NumCols M →
  row_sum M !! j = Some (column_sum M j).
Proof.
  intros (Hcols & _ & Hrows) Hj. unfold row_sum, column_sum.
  apply (foldl_AddVec_lookup (Z.to_nat (NumCols M))).
  - eapply Forall_impl; [exact Hrows|]. cbn. lia.
  - lia.
  - apply length_replicate.
  - apply lookup_replicate_2. lia.
Qed.

(** An element of an accumulator after resizing. *)
Lemma resized_lookup (dim : Z) (v : CuVector) (j : nat) :
  Z.of_nat j < dim →
  NonlinearComponent.resized dim v !! j
  = Some (if decide (Dim v = dim) then nth j v IEEE.pzero else IEEE.pzero).
Proof.
  intros Hj. unfold NonlinearComponent.resized, Dim, CuVector in *.
  case_decide as Hdim.
  - destruct (lookup_lt_is_Some_2 v j) as [x Hx]; [lia|].
    by rewrite Hx, (nth_lookup_Some _ _ _ _ Hx).
  - apply lookup_replicate_2. lia.
Qed.

Lemma Dim_resized (dim : Z) (v : CuVector) :
  0 ≤ dim → Dim (NonlinearComponent.resized dim v) = dim.
Proof.
  intros Hdim. unfold NonlinearComponent.resized. case_decide; [done|].
  unfold Dim, zero_vector. rewrite length_replicate. lia.
Qed.

(** An accumulator after one batch: its dimension and its elements. *)
Lemma accumulate_lookup (dim : Z) (v : CuVector) (M : CuMatrixBase) :
  wf_matrix M → NumCols M = dim →
  Dim (AddVec (NonlinearComponent.resized dim v) (row_sum M)) = dim ∧
  ∀ j : nat, Z.of_nat j < dim →
    AddVec (NonlinearComponent.resized dim v) (row_sum M) !! j
    = Some (double_add
              (if decide (Dim v = dim) then nth j v IEEE.pzero
               else IEEE.pzero)
              (column_sum M j)).
Proof.
  intros Hwf Hcols. pose proof (Dim_row_sum M Hwf) as Hrs.
  assert (Hdim : 0 ≤ dim) by (destruct Hwf as ([? ?] & _); lia).
  pose proof (Dim_resized dim v Hdim) as Hrz. unfold Dim in Hrs, Hrz.
  split.
  - unfold Dim. rewrite length_AddVec; lia.
  - intros j Hj. rewrite AddVec_lookup by lia.
    pose proof (resized_lookup dim v j Hj) as Hl.
    rewrite (nth_lookup_Some _ _ _ _ Hl).
    rewrite (nth_lookup_Some (row_sum M) j IEEE.pzero (column_sum M j));
      [done|].
    apply row_sum_lookup; [done | lia].
Qed.

(** C6: with matrices of the component's dimension, [UpdateStats] returns
    normally; it adds to each element of [value_sum_] the sum of the
    corresponding column of the output values, to each element of
    [deriv_sum_] the sum of the corresponding column of the derivatives when
    they are supplied (and leaves [deriv_sum_] as it is otherwise), and adds
    the number of rows to [count_]; an accumulator of another dimension
    starts from zero.  Hence, on a newly constructed component, after two
    batches [count_] is the sum of the two row counts (exactly: row counts
    are [int32] values) and each element of [value_sum_] is the sum of the
    two batches' sums of that column. *)
Theorem UpdateStats_accumulates (this raw : NonlinearComponent)
    (out_value batch2 : CuMatrixBase) (deriv : option CuMatrixBase) :
  wf_matrix out_value → wf_matrix batch2 →
  NumCols out_value = NonlinearComponent.InputDim this →
  NumCols batch2 = NonlinearComponent.InputDim this →
  (∀ d, deriv = Some d →
        wf_matrix d ∧ NumCols d = NonlinearComponent.InputDim this) →
  let dim := NonlinearComponent.InputDim this in
  (∃ c, NonlinearComponent.UpdateStats out_value deriv this = Ok c ∧
        NonlinearComponent.InputDim c = dim ∧
        Dim (NonlinearComponent.ValueSum c) = dim ∧
        (∀ j : nat, Z.of_nat j < dim →
           NonlinearComponent.ValueSum c !! j
           = Some (double_add
                     (if decide (Dim (NonlinearComponent.ValueSum this) = dim)
                      then nth j (NonlinearComponent.ValueSum this) IEEE.pzero
                      else IEEE.pzero)
                     (column_sum out_value j))) ∧
        match deriv with
        | None =>
            NonlinearComponent.DerivSum c = NonlinearComponent.DerivSum this
        | Some d =>
            Dim (NonlinearComponent.DerivSum c) = dim ∧
            ∀ j : nat, Z.of_nat j < dim →
              NonlinearComponent.DerivSum c !! j
              = Some (double_add
                        (if decide
                              (Dim (NonlinearComponent.DerivSum this) = dim)
                         then nth j (NonlinearComponent.DerivSum this)
                                IEEE.pzero
                         else IEEE.pzero)
                        (column_sum d j))
        end ∧
        NonlinearComponent.Count c
        = double_add (NonlinearComponent.Count this)
                     (double_of_Z (NumRows out_value))) ∧
  (∃ c1 c2,
      NonlinearComponent.UpdateStats out_value None
        (NonlinearComponent.make dim raw) = Ok c1 ∧
      NonlinearComponent.UpdateStats batch2 None c1 = Ok c2 ∧
      NonlinearComponent.Count c2
      = double_of_Z (NumRows out_value + NumRows batch2) ∧
      Dim (NonlinearComponent.ValueSum c2) = dim ∧
      ∀ j : nat, Z.of_nat j < dim →
        ∃ v, NonlinearComponent.ValueSum c2 !! j = Some v ∧
             IEEE.same_number v
               (double_add (column_sum out_value j) (column_sum batch2 j))).
Proof.
  intros Hwf1 Hwf2 Hcols1 Hcols2 Hderiv dim. fold dim in Hcols1, Hcols2.
  split.
  - eexists. split.
    { apply UpdateStats_ok; [done|]. intros d Hd. by apply Hderiv. }
    cbn [NonlinearComponent.InputDim NonlinearComponent.ValueSum
         NonlinearComponent.DerivSum NonlinearComponent.Count
         dim_ value_sum_ deriv_sum_ count_].
    destruct (accumulate_lookup dim (value_sum_ this) out_value Hwf1 Hcols1)
      as [Hd Hl].
    split; [done|]. split; [exact Hd|]. split; [exact Hl|].
    split; [|done].
    destruct deriv as [d|]; [|done].
    destruct (Hderiv d eq_refl) as [Hwfd Hcolsd].
    exact (accumulate_lookup dim (deriv_sum_ this) d Hwfd Hcolsd).
  - do 2 eexists. split; [by apply UpdateStats_ok|].
    split; [by apply UpdateStats_ok|].
    cbn [NonlinearComponent.make NonlinearComponent.Init
         NonlinearComponent.Count NonlinearComponent.ValueSum
         dim_ value_sum_ count_].
    destruct (accumulate_lookup dim [] out_value Hwf1 Hcols1) as [Hd1 Hl1].
    destruct (accumulate_lookup dim
                (AddVec (NonlinearComponent.resized dim []) (row_sum out_value))
                batch2 Hwf2 Hcols2) as [Hd2 Hl2].
    split; [|split; [exact Hd2|]].
    + rewrite double_add_zero_count by (unfold NumRows; lia).
      destruct Hwf1 as (_ & Hr1 & _), Hwf2 as (_ & Hr2 & _).
      apply SFadd_of_Z; unfold NumRows in *; lia.
    + intros j Hj. eexists. split; [apply Hl2, Hj|].
      assert (Hfirst :
                AddVec (NonlinearComponent.resized dim []) (row_sum out_value)
                  !! j
                = Some (double_add IEEE.pzero (column_sum out_value j))).
      { rewrite (Hl1 j Hj). by destruct (decide _), j. }
      rewrite decide_True by exact Hd1.
      rewrite (nth_lookup_Some _ _ _ _ Hfirst).
      apply double_add_zero_first.
Qed.

Lemma UpdateStats_accumulates_witness :
  ∃ c1 c2,
    NonlinearComponent.UpdateStats batch_of_one_row None
      (NonlinearComponent.make 2 trained_nonlinear) = Ok c1 ∧
    NonlinearComponent.UpdateStats batch_of_two_rows None c1 = Ok c2 ∧
    NonlinearComponent.Count c2 = double_of_Z (1 + 2) ∧
    Dim (NonlinearComponent.ValueSum c2) = 2 ∧
    ∀ j : nat, Z.of_nat j < 2 →
      ∃ v, NonlinearComponent.ValueSum c2 !! j = Some v ∧
           IEEE.same_number v
             (double_add (column_sum batch_of_one_row j)
                         (column_sum batch_of_two_rows j)).
Proof.
  refine (proj2 (UpdateStats_accumulates
                   (NonlinearComponent.make 2 trained_nonlinear)
                   trained_nonlinear batch_of_one_row batch_of_two_rows
                   (Some batch_of_one_row) _ _ _ _ _)).
  - split; [split; vm_compute; [discriminate | reflexivity]|].
    split; [reflexivity | repeat constructor].
  - split; [split; vm_compute; [discriminate | reflexivity]|].
    split; [reflexivity | repeat constructor].
  - reflexivity.
  - reflexivity.
  - intros d Hd. injection Hd as <-.
    split; [|reflexivity].
    split; [split; vm_compute; [discriminate | reflexivity]|].
    split; [reflexivity | repeat constructor].
Defined.

(** The column sums of the sample batches. *)
Example column_sum_samples :
  column_sum batch_of_one_row 0 = double_of_Z 1 ∧
  column_sum batch_of_one_row 1 = double_of_Z 1 ∧
  column_sum batch_of_two_rows 0 = double_of_Z 2 ∧
  column_sum batch_of_two_rows 1 = double_of_Z 2.
Proof. repeat split; vm_compute; reflexivity. Qed.

(** The two sample batches on a newly constructed component: the count is
    3.0, each value sum is 3.0, and no derivative sum is kept. *)
Example UpdateStats_two_batches :
  NonlinearComponent.UpdateStats batch_of_one_row None
    (NonlinearComponent.make 2 trained_nonlinear)
  ≫= NonlinearComponent.UpdateStats batch_of_two_rows None
  = Ok {| dim_ := 2;
          value_sum_ := [double_of_Z 3; double_of_Z 3];
          deriv_sum_ := [];
          count_ := double_of_Z 3 |}.
Proof. vm_compute. reflexivity. Qed.

(** * Further properties of the header *)

(** ** enum ComponentProperties: the flags as bits of a mask *)

(** Two enumerators share a bit only when they are the same enumerator; each
    has a bit, and all bits lie in the low ten. *)
Lemma flags_pairwise :
  Forall (λ f, f ≠ 0 ∧ 0 ≤ f ≤ 0x3FF ∧
               Forall (λ g, Z.land g f = if decide (f = g) then f else 0)
                      ComponentProperties_flags)
         ComponentProperties_flags.
Proof. compute_done. Qed.

Lemma flag_land (f g : Z) :
  f ∈ ComponentProperties_flags → g ∈ ComponentProperties_flags →
  f ≠ 0 ∧ Z.land g f = if decide (f = g) then f else 0.
Proof.
  intros Hf Hg. pose proof flags_pairwise as H.
  rewrite Forall_forall in H. destruct (H f Hf) as (Hnz & _ & Hall).
  rewrite Forall_forall in Hall. split; [done|]. by apply Hall.
Qed.

Lemma has_property_lor (p q f : Z) :
  has_property (Z.lor p q) f = has_property p f || has_property q f.
Proof.
  unfold has_property. rewrite Z.land_lor_distr_l.
  destruct (Z.eqb_spec (Z.land p f) 0) as [Hp|Hp],
           (Z.eqb_spec (Z.land q f) 0) as [Hq|Hq]; cbn.
  - rewrite Hp, Hq. reflexivity.
  - rewrite Hp, Z.lor_0_l. by apply negb_true_iff, Z.eqb_neq.
  - rewrite Hq, Z.lor_0_r. by apply negb_true_iff, Z.eqb_neq.
  - apply negb_true_iff, Z.eqb_neq. rewrite Z.lor_eq_0_iff. tauto.
Qed.

Lemma has_property_flag (f g : Z) :
  f ∈ ComponentProperties_flags → g ∈ ComponentProperties_flags →
  has_property g f = bool_decide (f = g).
Proof.
  intros Hf Hg. destruct (flag_land f g Hf Hg) as [Hnz Hland].
  unfold has_property. rewrite Hland. case_decide as Heq.
  - rewrite bool_decide_eq_true_2 by done. by apply negb_true_iff, Z.eqb_neq.
  - rewrite bool_decide_eq_false_2 by done. reflexivity.
Qed.

(** X2: setting a flag in any mask makes the test of that flag succeed and
    leaves the test of every other flag as it was. *)
Theorem set_flag_test (properties f g : Z) :
  f ∈ ComponentProperties_flags → g ∈ ComponentProperties_flags →
  has_property (Z.lor properties g) f
  = if decide (f = g) then true else has_property properties f.
Proof.
  intros Hf Hg. rewrite has_property_lor, (has_property_flag f g Hf Hg).
  case_decide.
  - rewrite bool_decide_eq_true_2 by done. apply orb_true_r.
  - rewrite bool_decide_eq_false_2 by done. apply orb_false_r.
Qed.

Lemma set_flag_test_witness :
  has_property (Z.lor 0x021 kPropagateInPlace) kBackpropNeedsOutput
  = has_property 0x021 kBackpropNeedsOutput.
Proof.
  refine (set_flag_test 0x021 kBackpropNeedsOutput kPropagateInPlace _ _);
    compute_done.
Defined.

Lemma mask_of_range (flags : list Z) :
  Forall (λ g, g ∈ ComponentProperties_flags) flags →
  0 ≤ mask_of flags ≤ 0x3FF.
Proof.
  intros Hall. pose proof flags_pairwise as Hpw. rewrite Forall_forall in Hpw.
  assert (H : 0 ≤ mask_of flags ∧ Z.log2 (mask_of flags) < 10).
  { induction Hall as [|g flags Hg Hall IH]; [done|].
    destruct IH as [IH0 IHlog]. destruct (Hpw g Hg) as (_ & Hrange & _).
    change (mask_of (g :: flags)) with (Z.lor g (mask_of flags)).
    split; [apply Z.lor_nonneg; lia|].
    rewrite Z.log2_lor by lia.
    assert (Z.log2 g < 10).
    { destruct (decide (g = 0)) as [->|]; [done|].
      apply Z.log2_lt_pow2; lia. }
    lia. }
  destruct H as [H0 Hlog]. split; [done|].
  destruct (decide (mask_of flags = 0)) as [->|]; [done|].
  apply Z.log2_lt_pow2 in Hlog; lia.
Qed.

(** X1: a mask that is the bitwise OR of enumerators has exactly their flags:
    the test of an enumerator succeeds if and only if it is one of them.
    Such a mask is a non-negative [int32] below 0x400. *)
Theorem mask_of_test (flags : list Z) (f : Z) :
  Forall (λ g, g ∈ ComponentProperties_flags) flags →
  f ∈ ComponentProperties_flags →
  (has_property (mask_of flags) f = true ↔ f ∈ flags) ∧
  0 ≤ mask_of flags ≤ 0x3FF.
Proof.
  intros Hall Hf. split; [|by apply mask_of_range].
  induction Hall as [|g flags Hg Hall IH].
  - cbn. split; [done|]. by intros ?%not_elem_of_nil.
  - change (mask_of (g :: flags)) with (Z.lor g (mask_of flags)).
    rewrite has_property_lor, orb_true_iff, (has_property_flag f g Hf Hg).
    rewrite bool_decide_eq_true, elem_of_cons, IH. done.
Qed.

Lemma mask_of_test_witness :
  (has_property (mask_of [kSimpleComponent; kBackpropNeedsOutput])
     kBackpropNeedsInput = true
   ↔ kBackpropNeedsInput ∈ [kSimpleComponent; kBackpropNeedsOutput]) ∧
  0 ≤ mask_of [kSimpleComponent; kBackpropNeedsOutput] ≤ 0x3FF.
Proof.
  refine (mask_of_test [kSimpleComponent; kBackpropNeedsOutput]
            kBackpropNeedsInput _ _); compute_done.
Defined.

(** ** NonlinearComponent: construction and re-initialisation *)

(** X3: the constructor taking a dimension initialises every member: its result
    does not depend on what the storage held.  It is what [Init] gives after
    the default constructor, and a second [Init] overrides the first.  The
    default constructor itself sets the dimension to 0 and leaves the count
    as the storage had it. *)
Theorem NonlinearComponent_construction (dim dim' : Z)
    (raw raw' c : NonlinearComponent) :
  NonlinearComponent.make dim raw = NonlinearComponent.make dim raw' ∧
  NonlinearComponent.Init dim (NonlinearComponent.default raw)
  = NonlinearComponent.make dim raw' ∧
  NonlinearComponent.Init dim (NonlinearComponent.Init dim' c)
  = NonlinearComponent.Init dim c ∧
  NonlinearComponent.InputDim (NonlinearComponent.default raw) = 0 ∧
  NonlinearComponent.Count (NonlinearComponent.default raw)
  = NonlinearComponent.Count raw.
Proof. repeat split. Qed.

(** X4: [Init] does not resize the accumulators: called with a dimension
    other than theirs, it leaves a component whose [InputDim()] and
    [OutputDim()] are the new dimension while [ValueSum()] and [DerivSum()]
    keep the old one, so that [ValueSum().Dim()] is not [InputDim()]. *)
Theorem Init_keeps_accumulator_dimension (c : NonlinearComponent) (dim : Z) :
  Dim (NonlinearComponent.ValueSum c) ≠ dim →
  let c' := NonlinearComponent.Init dim c in
  NonlinearComponent.InputDim c' = dim ∧
  NonlinearComponent.OutputDim c' = dim ∧
  Dim (NonlinearComponent.ValueSum c') = Dim (NonlinearComponent.ValueSum c) ∧
  Dim (NonlinearComponent.DerivSum c') = Dim (NonlinearComponent.DerivSum c) ∧
  Dim (NonlinearComponent.ValueSum c') ≠ NonlinearComponent.InputDim c'.
Proof. intros Hne. cbn. repeat split. exact Hne. Qed.

Lemma Init_keeps_accumulator_dimension_witness :
  let c' := NonlinearComponent.Init 5 trained_nonlinear in
  NonlinearComponent.InputDim c' = 5 ∧
  NonlinearComponent.OutputDim c' = 5 ∧
  Dim (NonlinearComponent.ValueSum c') = 2 ∧
  Dim (NonlinearComponent.DerivSum c') = 2 ∧
  Dim (NonlinearComponent.ValueSum c') ≠ NonlinearComponent.InputDim c'.
Proof.
  refine (Init_keeps_accumulator_dimension trained_nonlinear 5 _).
  vm_compute. discriminate.
Defined.

(** ** UpdatableComponent: learning rate and gradient flag *)

(** X5: [LearningRate()] reads back what [SetLearningRate] stored, the last
    [SetLearningRate] wins, the gradient flag is not touched by it, and the
    copy constructor gives an equal object, so copying and setting the
    learning rate commute. *)
Theorem SetLearningRate_LearningRate (c : UpdatableComponent)
    (lrate lrate' : spec_float) :
  UpdatableComponent.LearningRate
    (UpdatableComponent.SetLearningRate lrate c) = lrate ∧
  UpdatableComponent.SetLearningRate lrate'
    (UpdatableComponent.SetLearningRate lrate c)
  = UpdatableComponent.SetLearningRate lrate' c ∧
  is_gradient_ (UpdatableComponent.SetLearningRate lrate c) = is_gradient_ c ∧
  UpdatableComponent.copy c = c ∧
  UpdatableComponent.copy (UpdatableComponent.SetLearningRate lrate c)
  = UpdatableComponent.SetLearningRate lrate (UpdatableComponent.copy c).
Proof. destruct c. repeat split. Qed.

(** X7: with [double] as [BaseFloat] the default learning rate is the literal
    0.001 itself; with [float] it is another number, larger than the
    literal, so that comparing [LearningRate()] with 0.001 for equality
    fails. *)
Theorem default_learning_rate_precision :
  UpdatableComponent.LearningRate (UpdatableComponent.default IEEE.binary64)
  = lit_0_001 ∧
  SFcompare
    (IEEE.convert double_fmt
       (UpdatableComponent.LearningRate
          (UpdatableComponent.default IEEE.binary32)))
    lit_0_001 = Some Gt ∧
  SFeqb
    (IEEE.convert double_fmt
       (UpdatableComponent.LearningRate
          (UpdatableComponent.default IEEE.binary32)))
    lit_0_001 = false.
Proof. repeat split; vm_compute; reflexivity. Qed.
